(** * Pediatric insensible-water-loss calculator

    A shallow embedding of [src/pediatric-iwl-calculator.tsx]: the lookup
    [getNormalRR], the calculation [calculateResults] that the component
    runs again after every change of a field, [handleFactorChange] and the
    events of the form.

    The calculation is embedded twice, from the same lines of the source.

    In exact arithmetic.  A number is [NaN], one of the two infinities, or
    a finite value held as an exact real: the arithmetic of the language
    with its rounding left out (no rounding error, no overflow or
    underflow, no negative zero).  Comparisons with [NaN] are false and
    [NaN] and [0] are falsy, as in the language.  The results are stored as
    the strings [toFixed] makes of the numbers, and [toFixed] is left open.
    What is stated in this embedding is what holds of the doubles of the
    language as well: which operations are applied to which fields and in
    which order, the comparisons, and orderings that rounding keeps.

    In double precision ([Double]).  A number is a binary64 double and every
    operation rounds as the language does; [parseFloat] and [toFixed] are
    defined on doubles.  This embedding evaluates, and it states what
    rounding decides: the signs of the body surface area, the strings on
    display, and the forms at which a property of the exact arithmetic
    fails.

    The four fields of the form are strings, of code units below 256. *)

From Stdlib Require Import Floats.
From Stdlib Require Import Reals Lra Lia ZArith QArith Qreals Bool List.
From Stdlib Require Import Ascii String Permutation DecimalString.
Import ListNotations.

(** A decimal literal of the code denotes the double nearest to it. *)
Set Warnings "-inexact-float".

Open Scope R_scope.

(** ** Numbers *)

Inductive number : Type :=
| NaN
| PInf
| NInf
| Num (r : R).

Definition Rltb (x y : R) : bool := if Rlt_dec x y then true else false.
Definition Rleb (x y : R) : bool := if Rle_dec x y then true else false.
Definition Reqb (x y : R) : bool := if Req_dec_T x y then true else false.

(** The operators of the language on numbers. *)
Module JS.

(** [a < b] *)
Definition lt (a b : number) : bool :=
  match a, b with
  | NaN, _ | _, NaN => false
  | NInf, NInf => false
  | NInf, _ => true
  | _, NInf => false
  | PInf, _ => false
  | Num _, PInf => true
  | Num x, Num y => Rltb x y
  end.

(** [a > b] *)
Definition gt (a b : number) : bool := lt b a.

(** [a <= b] *)
Definition le (a b : number) : bool :=
  match a, b with
  | NaN, _ | _, NaN => false
  | NInf, _ => true
  | _, PInf => true
  | PInf, _ => false
  | Num _, NInf => false
  | Num x, Num y => Rleb x y
  end.

Definition neg (a : number) : number :=
  match a with
  | NaN => NaN
  | PInf => NInf
  | NInf => PInf
  | Num x => Num (- x)
  end.

(** [a + b] *)
Definition add (a b : number) : number :=
  match a, b with
  | NaN, _ | _, NaN => NaN
  | PInf, NInf | NInf, PInf => NaN
  | PInf, _ | _, PInf => PInf
  | NInf, _ | _, NInf => NInf
  | Num x, Num y => Num (x + y)
  end.

(** [a - b] *)
Definition sub (a b : number) : number := add a (neg b).

(** An infinity times a finite value: the sign of the value decides, and
    zero gives [NaN]. *)
Definition scale_inf (inf : number) (x : R) : number :=
  if Rltb 0 x then inf else if Rltb x 0 then neg inf else NaN.

(** [a * b] *)
Definition mul (a b : number) : number :=
  match a, b with
  | NaN, _ | _, NaN => NaN
  | Num x, Num y => Num (x * y)
  | Num x, inf => scale_inf inf x
  | inf, Num y => scale_inf inf y
  | PInf, PInf | NInf, NInf => PInf
  | PInf, NInf | NInf, PInf => NInf
  end.

(** [a / b] *)
Definition div (a b : number) : number :=
  match a, b with
  | NaN, _ | _, NaN => NaN
  | Num x, Num y =>
      if Reqb y 0 then scale_inf PInf x else Num (x / y)
  | Num _, _ => Num 0
  | inf, Num y => if Reqb y 0 then inf else scale_inf inf y
  | _, _ => NaN
  end.

(** ToBoolean on a number: [NaN] and [0] are falsy. *)
Definition truthy (a : number) : bool :=
  match a with
  | NaN => false
  | Num x => negb (Reqb x 0)
  | _ => true
  end.

(** [a || b] on numbers. *)
Definition or (a b : number) : number := if truthy a then a else b.

End JS.

Module Math.

(** [Math.sqrt(a)] *)
Definition sqrt (a : number) : number :=
  match a with
  | NaN | NInf => NaN
  | PInf => PInf
  | Num x => if Rltb x 0 then NaN else Num (sqrt x)
  end.

End Math.

Declare Scope js_scope.
Delimit Scope js_scope with js.
Bind Scope js_scope with number.
Infix "+" := JS.add : js_scope.
Infix "-" := JS.sub : js_scope.
Infix "*" := JS.mul : js_scope.
Infix "/" := JS.div : js_scope.
Infix "<" := JS.lt : js_scope.
Infix ">" := JS.gt : js_scope.
Infix "<=" := JS.le : js_scope.
Infix "||" := JS.or : js_scope.

(** ** parseFloat

    The built-in [parseFloat]: leading white space is dropped, the longest
    prefix that is a StrDecimalLiteral is read, and its mathematical value
    is the result; [NaN] when there is no such prefix.  A string is a
    sequence of code units below 256, so of the white space of the language
    only the characters of that range appear. *)

Open Scope string_scope.

Definition isStrWhiteSpaceChar (c : ascii) : bool :=
  let n := nat_of_ascii c in
  existsb (Nat.eqb n) [9; 10; 11; 12; 13; 32; 160]%nat.

Fixpoint trimStart (s : string) : string :=
  match s with
  | String c r => if isStrWhiteSpaceChar c then trimStart r else s
  | EmptyString => s
  end.

Definition digitValue (c : ascii) : option Z :=
  let n := Z.of_nat (nat_of_ascii c) in
  if ((48 <=? n) && (n <=? 57))%Z then Some (n - 48)%Z else None.

(** Reads the longest run of decimal digits at the head of [s], continuing
    the value [acc]: the value, the number of digits read, and the rest. *)
Fixpoint readDigits (s : string) (acc : Z) (n : nat) : Z * nat * string :=
  match s with
  | String c r =>
      match digitValue c with
      | Some d => readDigits r (10 * acc + d)%Z (S n)
      | None => (acc, n, s)
      end
  | EmptyString => (acc, n, s)
  end.

Inductive literal : Type :=
| Infinity
| Decimal (q : Q).

(** ExponentPart, when one is there: [e] or [E], an optional sign and at
    least one digit. *)
Definition readExponent (s : string) : Z :=
  match s with
  | String c r =>
      if (Ascii.eqb c "e" || Ascii.eqb c "E")%bool then
        let '(neg, r') :=
          match r with
          | String "+" r' => (false, r')
          | String "-" r' => (true, r')
          | _ => (false, r)
          end in
        let '(e, n, _) := readDigits r' 0 0 in
        match n with
        | O => 0%Z
        | S _ => if neg then (- e)%Z else e
        end
      else 0%Z
  | EmptyString => 0%Z
  end.

(** StrUnsignedDecimalLiteral: [Infinity], or digits with an optional
    fraction and exponent, or a fraction with an optional exponent. *)
Definition readUnsigned (s : string) : option literal :=
  if prefix "Infinity" s then Some Infinity
  else
    let '(ip, n1, r1) := readDigits s 0 0 in
    let '(mant, nfrac, r2) :=
      match r1 with
      | String "." r => readDigits r ip 0
      | _ => (ip, O, r1)
      end in
    match (n1 + nfrac)%nat with
    | O => None
    | S _ =>
        let e := (readExponent r2 - Z.of_nat nfrac)%Z in
        Some (Decimal (inject_Z mant * Qpower (inject_Z 10) e)%Q)
    end.

(** StrDecimalLiteral: an optional sign before the unsigned literal; the
    boolean tells a minus sign. *)
Definition readSigned (s : string) : option (bool * literal) :=
  let '(minus, r) :=
    match s with
    | String "+" r => (false, r)
    | String "-" r => (true, r)
    | r => (false, r)
    end in
  option_map (pair minus) (readUnsigned r).

(** The mathematical value of a literal. *)
Definition MV (l : bool * literal) : number :=
  match l with
  | (minus, Infinity) => if minus then NInf else PInf
  | (minus, Decimal q) => Num (Q2R (if minus then (- q)%Q else q))
  end.

Definition parseFloat (s : string) : number :=
  match readSigned (trimStart s) with
  | Some l => MV l
  | None => NaN
  end.

(** ToBoolean on a string: only the empty string is falsy. *)
Definition truthyString (s : string) : bool := negb (s =? "").

(** ** The component *)

Arguments Num r%_R.
Open Scope js_scope.

Record NormalRR : Type := {
  min : number;
  max : number;
  age : string
}.

(** Normal respiratory rates by age (lines 19-26). *)
Definition getNormalRR (weightKg : number) : NormalRR :=
  if weightKg < Num 3 then {| min := Num 30; max := Num 60; age := "Newborn" |}
  else if weightKg < Num 5 then {| min := Num 30; max := Num 50; age := "0-3 months" |}
  else if weightKg < Num 8 then {| min := Num 25; max := Num 40; age := "3-6 months" |}
  else if weightKg < Num 12 then {| min := Num 20; max := Num 35; age := "6-12 months" |}
  else if weightKg < Num 20 then {| min := Num 20; max := Num 30; age := "1-3 years" |}
  else {| min := Num 15; max := Num 25; age := "3+ years" |}.

Record AdditionalFactors : Type := {
  phototherapy : bool;
  radiantWarmer : bool;
  lowHumidity : bool;
  burns : bool
}.

(** The keys of [additionalFactors]. *)
Inductive factor : Type :=
| Phototherapy
| RadiantWarmer
| LowHumidity
| Burns.

(** [additionalFactors[key]] *)
Definition getFactor (f : AdditionalFactors) (key : factor) : bool :=
  match key with
  | Phototherapy => phototherapy f
  | RadiantWarmer => radiantWarmer f
  | LowHumidity => lowHumidity f
  | Burns => burns f
  end.

(** [{...prev, [key]: v}] *)
Definition setFactor (f : AdditionalFactors) (key : factor) (v : bool)
  : AdditionalFactors :=
  match key with
  | Phototherapy =>
      {| phototherapy := v; radiantWarmer := radiantWarmer f;
         lowHumidity := lowHumidity f; burns := burns f |}
  | RadiantWarmer =>
      {| phototherapy := phototherapy f; radiantWarmer := v;
         lowHumidity := lowHumidity f; burns := burns f |}
  | LowHumidity =>
      {| phototherapy := phototherapy f; radiantWarmer := radiantWarmer f;
         lowHumidity := v; burns := burns f |}
  | Burns =>
      {| phototherapy := phototherapy f; radiantWarmer := radiantWarmer f;
         lowHumidity := lowHumidity f; burns := v |}
  end.

(** The object handed to [setResults] (lines 69-83): every quantity but
    [normalRR] is stored as the string [toFixed] makes of it. *)
Module Results.
Record t : Type := {
  bsa : string;
  baseIWL_low : string;
  baseIWL_high : string;
  weightBasedIWL_low : string;
  weightBasedIWL_high : string;
  adjustedIWL_low : string;
  adjustedIWL_high : string;
  hourlyRate_low : string;
  hourlyRate_high : string;
  feverAdjustment : string;
  rrAdjustment : string;
  normalRR : NormalRR;
  additionalAdjustment : string
}.
End Results.

(** The state of the component (lines 5-16). *)
Record State : Type := {
  height : string;
  weight : string;
  temperature : string;
  respiratoryRate : string;
  additionalFactors : AdditionalFactors;
  results : option Results.t;
  showInfo : bool
}.

Definition initialState : State := {|
  height := "";
  weight := "";
  temperature := "37";
  respiratoryRate := "";
  additionalFactors :=
    {| phototherapy := false; radiantWarmer := false;
       lowHumidity := false; burns := false |};
  results := None;
  showInfo := false
|}.

Definition setResults (r : Results.t) (st : State) : State :=
  {| height := height st; weight := weight st;
     temperature := temperature st; respiratoryRate := respiratoryRate st;
     additionalFactors := additionalFactors st;
     results := Some r; showInfo := showInfo st |}.

Definition setAdditionalFactors (f : AdditionalFactors -> AdditionalFactors)
  (st : State) : State :=
  {| height := height st; weight := weight st;
     temperature := temperature st; respiratoryRate := respiratoryRate st;
     additionalFactors := f (additionalFactors st);
     results := results st; showInfo := showInfo st |}.

(** The values of the constants and variables of the body of
    [calculateResults] when it reaches [setResults]. *)
Record Locals : Type := {
  heightCm : number;
  weightKg : number;
  temp : number;
  rr : number;
  bsa : number;
  baseIWL_low : number;
  baseIWL_high : number;
  weightBasedIWL_low : number;
  weightBasedIWL_high : number;
  feverAdjustment : number;
  feverMultiplier : number;
  normalRR : NormalRR;
  rrAdjustment : number;
  additionalAdjustment : number;
  adjustedIWL_low : number;
  adjustedIWL_high : number
}.

(** The body of [calculateResults] after its guard, up to the call of
    [setResults] (lines 31-67).  The two variables declared with [let] are
    rebound at each assignment. *)
Definition calculate (st : State) : Locals :=
  let heightCm := parseFloat (height st) in
  let weightKg := parseFloat (weight st) in
  let temp := parseFloat (temperature st) in
  let rr := parseFloat (respiratoryRate st) || Num 0 in
  let bsa := Math.sqrt ((heightCm * weightKg) / Num 3600) in
  let baseIWL_low := bsa * Num 400 in
  let baseIWL_high := bsa * Num 500 in
  let weightBasedIWL_low := weightKg * Num 15 in
  let weightBasedIWL_high := weightKg * Num 20 in
  let feverAdjustment :=
    if temp > Num 37 then (temp - Num 37) * Num 0.13 else Num 0 in
  let feverMultiplier := Num 1 + feverAdjustment in
  let normalRR := getNormalRR weightKg in
  let rrAdjustment := Num 0 in
  let rrAdjustment :=
    if rr > max normalRR then (rr - max normalRR) * Num 2 * weightKg
    else rrAdjustment in
  let additionalAdjustment := Num 0 in
  let additionalAdjustment :=
    if phototherapy (additionalFactors st)
    then additionalAdjustment + baseIWL_low * Num 0.2
    else additionalAdjustment in
  let additionalAdjustment :=
    if radiantWarmer (additionalFactors st)
    then additionalAdjustment + baseIWL_low * Num 0.3
    else additionalAdjustment in
  let additionalAdjustment :=
    if lowHumidity (additionalFactors st)
    then additionalAdjustment + baseIWL_low * Num 0.25
    else additionalAdjustment in
  let additionalAdjustment :=
    if burns (additionalFactors st)
    then additionalAdjustment + baseIWL_low * Num 0.5
    else additionalAdjustment in
  let adjustedIWL_low :=
    (baseIWL_low * feverMultiplier) + rrAdjustment + additionalAdjustment in
  let adjustedIWL_high :=
    (baseIWL_high * feverMultiplier) + rrAdjustment + additionalAdjustment in
  {| heightCm := heightCm; weightKg := weightKg; temp := temp; rr := rr;
     bsa := bsa; baseIWL_low := baseIWL_low; baseIWL_high := baseIWL_high;
     weightBasedIWL_low := weightBasedIWL_low;
     weightBasedIWL_high := weightBasedIWL_high;
     feverAdjustment := feverAdjustment; feverMultiplier := feverMultiplier;
     normalRR := normalRR; rrAdjustment := rrAdjustment;
     additionalAdjustment := additionalAdjustment;
     adjustedIWL_low := adjustedIWL_low;
     adjustedIWL_high := adjustedIWL_high |}.

Section Component.

(** The built-in [Number.prototype.toFixed]: [toFixed x d] is
    [x.toFixed(d)]. *)
Variable toFixed : number -> nat -> string.

(** The argument of [setResults] (lines 69-83). *)
Definition formatResults (l : Locals) : Results.t :=
  {| Results.bsa := toFixed (bsa l) 3;
     Results.baseIWL_low := toFixed (baseIWL_low l) 0;
     Results.baseIWL_high := toFixed (baseIWL_high l) 0;
     Results.weightBasedIWL_low := toFixed (weightBasedIWL_low l) 0;
     Results.weightBasedIWL_high := toFixed (weightBasedIWL_high l) 0;
     Results.adjustedIWL_low := toFixed (adjustedIWL_low l) 0;
     Results.adjustedIWL_high := toFixed (adjustedIWL_high l) 0;
     Results.hourlyRate_low := toFixed (adjustedIWL_low l / Num 24) 1;
     Results.hourlyRate_high := toFixed (adjustedIWL_high l / Num 24) 1;
     Results.feverAdjustment := toFixed (feverAdjustment l * Num 100) 1;
     Results.rrAdjustment := toFixed (rrAdjustment l) 0;
     Results.normalRR := normalRR l;
     Results.additionalAdjustment := toFixed (additionalAdjustment l) 0 |}.

(** [calculateResults] (lines 28-84): it returns at once, leaving the
    state as it is, when [height] or [weight] is the empty string, and
    otherwise stores the results of [calculate]. *)
Definition calculateResults (st : State) : State :=
  if (negb (truthyString (height st)) || negb (truthyString (weight st)))%bool
  then st
  else setResults (formatResults (calculate st)) st.

End Component.

(** [handleFactorChange] (lines 90-95).  The effect of lines 86-88 then
    runs [calculateResults] again, as it does after every change of a
    field. *)
Definition handleFactorChange (key : factor) (st : State) : State :=
  setAdditionalFactors
    (fun prev => setFactor prev key (negb (getFactor prev key))) st.

(** ** The events of the form

    The setters of the state the inputs call (lines 5-8 and 16), the events
    of the form (lines 114, 147, 160, 177, 191 and 216) and the effect of
    lines 86-88. *)

Definition setHeight (v : string) (st : State) : State :=
  {| height := v; weight := weight st;
     temperature := temperature st; respiratoryRate := respiratoryRate st;
     additionalFactors := additionalFactors st;
     results := results st; showInfo := showInfo st |}.

Definition setWeight (v : string) (st : State) : State :=
  {| height := height st; weight := v;
     temperature := temperature st; respiratoryRate := respiratoryRate st;
     additionalFactors := additionalFactors st;
     results := results st; showInfo := showInfo st |}.

Definition setTemperature (v : string) (st : State) : State :=
  {| height := height st; weight := weight st;
     temperature := v; respiratoryRate := respiratoryRate st;
     additionalFactors := additionalFactors st;
     results := results st; showInfo := showInfo st |}.

Definition setRespiratoryRate (v : string) (st : State) : State :=
  {| height := height st; weight := weight st;
     temperature := temperature st; respiratoryRate := v;
     additionalFactors := additionalFactors st;
     results := results st; showInfo := showInfo st |}.

Definition setShowInfo (v : bool) (st : State) : State :=
  {| height := height st; weight := weight st;
     temperature := temperature st; respiratoryRate := respiratoryRate st;
     additionalFactors := additionalFactors st;
     results := results st; showInfo := v |}.

(** What the user does: a new text in one of the four inputs, a click on a
    checkbox of a risk factor, a click on the information button. *)
Inductive event : Type :=
| HeightChange (v : string)
| WeightChange (v : string)
| TemperatureChange (v : string)
| RespiratoryRateChange (v : string)
| FactorChange (key : factor)
| InfoClick.

(** The handler of an event. *)
Definition handle (ev : event) (st : State) : State :=
  match ev with
  | HeightChange v => setHeight v st
  | WeightChange v => setWeight v st
  | TemperatureChange v => setTemperature v st
  | RespiratoryRateChange v => setRespiratoryRate v st
  | FactorChange key => handleFactorChange key st
  | InfoClick => setShowInfo (negb (showInfo st)) st
  end.

(** Whether the handler of [ev] changes one of the dependencies of the
    effect (line 88): a text other than the one the field holds, or the new
    object [handleFactorChange] makes at every call. *)
Definition changesDependencies (ev : event) (st : State) : bool :=
  match ev with
  | HeightChange v => negb (v =? height st)
  | WeightChange v => negb (v =? weight st)
  | TemperatureChange v => negb (v =? temperature st)
  | RespiratoryRateChange v => negb (v =? respiratoryRate st)
  | FactorChange _ => true
  | InfoClick => false
  end.

(** Whether the placeholder stands in for the results panel (line 235). *)
Definition showsPlaceholder (st : State) : bool :=
  match results st with
  | Some _ => false
  | None => true
  end.

Section Events.

Variable toFixed : number -> nat -> string.

(** An event and what follows it: its handler, then the effect when one of
    its dependencies has changed. *)
Definition dispatch (st : State) (ev : event) : State :=
  if changesDependencies ev st
  then calculateResults toFixed (handle ev st)
  else handle ev st.

(** The stored results are those of the form as it stands, when its height
    and weight are both filled in. *)
Definition inStep (st : State) : Prop :=
  height st <> "" -> weight st <> "" ->
  results st = Some (formatResults toFixed (calculate st)).

(** The component after its first render, when the effect runs once. *)
Definition mounted : State := calculateResults toFixed initialState.

(** The component after the events [evs], the earliest first. *)
Definition run (evs : list event) : State := fold_left dispatch evs mounted.

End Events.


(** ** The calculation in double precision

    The same source once more, with the numbers of the language as they
    are: [float] is the binary64 format of IEEE 754, its operations round
    to the nearest double, ties to the even one, and overflow, underflow,
    the two zeros and [nan] are there.  It evaluates, and it decides what
    rounding decides. *)

Module Double.

Local Set Warnings "-inexact-float".
Local Open Scope float_scope.

(** The double nearest to [n / d], ties to the even one, with the sign
    [minus]; [n] is not negative. *)
Definition nearest (minus : bool) (n : Z) (d : positive) : float :=
  match n with
  | Zpos _ =>
      let '(mz, ez, lz) := SFdiv_core_binary prec emax n 0 (Zpos d) 0 in
      SF2Prim (binary_round_aux prec emax minus mz ez lz)
  | _ => if minus then neg_zero else PrimFloat.zero
  end.

(** The value of a literal: its mathematical value rounded to a double. *)
Definition MV (l : bool * literal) : float :=
  match l with
  | (minus, Infinity) => if minus then neg_infinity else infinity
  | (minus, Decimal q) => nearest minus (Qnum q) (Qden q)
  end.

Definition parseFloat (s : string) : float :=
  match readSigned (trimStart s) with
  | Some l => MV l
  | None => nan
  end.

(** ToBoolean on a number: [nan] and the two zeros are falsy. *)
Definition truthy (a : float) : bool := negb (is_nan a || is_zero a).

(** [a || b] on numbers. *)
Definition or (a b : float) : float := if truthy a then a else b.

Record NormalRR : Type := {
  min : float;
  max : float;
  age : string
}.

(** Normal respiratory rates by age (lines 19-26). *)
Definition getNormalRR (weightKg : float) : NormalRR :=
  if weightKg <? 3 then {| min := 30; max := 60; age := "Newborn" |}
  else if weightKg <? 5 then {| min := 30; max := 50; age := "0-3 months" |}
  else if weightKg <? 8 then {| min := 25; max := 40; age := "3-6 months" |}
  else if weightKg <? 12 then {| min := 20; max := 35; age := "6-12 months" |}
  else if weightKg <? 20 then {| min := 20; max := 30; age := "1-3 years" |}
  else {| min := 15; max := 25; age := "3+ years" |}.

Record Locals : Type := {
  heightCm : float;
  weightKg : float;
  temp : float;
  rr : float;
  bsa : float;
  baseIWL_low : float;
  baseIWL_high : float;
  weightBasedIWL_low : float;
  weightBasedIWL_high : float;
  feverAdjustment : float;
  feverMultiplier : float;
  normalRR : NormalRR;
  rrAdjustment : float;
  additionalAdjustment : float;
  adjustedIWL_low : float;
  adjustedIWL_high : float
}.

(** The body of [calculateResults] after its guard, up to the call of
    [setResults] (lines 31-67). *)
Definition calculate (st : State) : Locals :=
  let heightCm := parseFloat (height st) in
  let weightKg := parseFloat (weight st) in
  let temp := parseFloat (temperature st) in
  let rr := or (parseFloat (respiratoryRate st)) 0 in
  let bsa := PrimFloat.sqrt ((heightCm * weightKg) / 3600) in
  let baseIWL_low := bsa * 400 in
  let baseIWL_high := bsa * 500 in
  let weightBasedIWL_low := weightKg * 15 in
  let weightBasedIWL_high := weightKg * 20 in
  let feverAdjustment := if 37 <? temp then (temp - 37) * 0.13 else 0 in
  let feverMultiplier := 1 + feverAdjustment in
  let normalRR := getNormalRR weightKg in
  let rrAdjustment := 0 in
  let rrAdjustment :=
    if max normalRR <? rr then (rr - max normalRR) * 2 * weightKg
    else rrAdjustment in
  let additionalAdjustment := 0 in
  let additionalAdjustment :=
    if phototherapy (additionalFactors st)
    then additionalAdjustment + baseIWL_low * 0.2
    else additionalAdjustment in
  let additionalAdjustment :=
    if radiantWarmer (additionalFactors st)
    then additionalAdjustment + baseIWL_low * 0.3
    else additionalAdjustment in
  let additionalAdjustment :=
    if lowHumidity (additionalFactors st)
    then additionalAdjustment + baseIWL_low * 0.25
    else additionalAdjustment in
  let additionalAdjustment :=
    if burns (additionalFactors st)
    then additionalAdjustment + baseIWL_low * 0.5
    else additionalAdjustment in
  let adjustedIWL_low :=
    (baseIWL_low * feverMultiplier) + rrAdjustment + additionalAdjustment in
  let adjustedIWL_high :=
    (baseIWL_high * feverMultiplier) + rrAdjustment + additionalAdjustment in
  {| heightCm := heightCm; weightKg := weightKg; temp := temp; rr := rr;
     bsa := bsa; baseIWL_low := baseIWL_low; baseIWL_high := baseIWL_high;
     weightBasedIWL_low := weightBasedIWL_low;
     weightBasedIWL_high := weightBasedIWL_high;
     feverAdjustment := feverAdjustment; feverMultiplier := feverMultiplier;
     normalRR := normalRR; rrAdjustment := rrAdjustment;
     additionalAdjustment := additionalAdjustment;
     adjustedIWL_low := adjustedIWL_low;
     adjustedIWL_high := adjustedIWL_high |}.

(** *** toFixed

    [Number.prototype.toFixed] for the digits 0 to 100 the code asks for:
    [Number::toString] for what is not finite and from 10^21 on, and below
    that the decimal digits of the integer [n] nearest to [x * 10^f], the
    larger of two. *)

(** The decimal digits of a natural number. *)
Definition digits (n : Z) : string :=
  NilZero.string_of_uint (N.to_uint (Z.to_N n)).

(** The absolute value of a finite double as [m * 2 ^ e]. *)
Definition magnitude (x : float) : Z * Z :=
  match Prim2SF x with
  | S754_finite _ m e => (Zpos m, e)
  | _ => (0%Z, 0%Z)
  end.

(** Whether [m * 2 ^ e >= n]. *)
Definition atLeast (me : Z * Z) (n : Z) : bool :=
  let '(m, e) := me in
  if (0 <=? e)%Z then (n <=? m * 2 ^ e)%Z else (n * 2 ^ (- e) <=? m)%Z.

(** The integer nearest to [m * 2 ^ e * 10 ^ f], the larger of two. *)
Definition scaled (me : Z * Z) (f : nat) : Z :=
  let '(m, e) := me in
  let t := (m * 10 ^ Z.of_nat f)%Z in
  if (0 <=? e)%Z then (t * 2 ^ e)%Z
  else ((2 * t + 2 ^ (- e)) / 2 ^ (1 - e))%Z.

Fixpoint zeros (n : nat) : string :=
  match n with
  | O => ""
  | S n' => String "0" (zeros n')
  end.

(** [v] without the zeros at its end. *)
Fixpoint stripZeros (fuel : nat) (v : Z) : Z :=
  match fuel with
  | O => v
  | S fuel' =>
      if ((v mod 10 =? 0) && negb (v =? 0))%Z%bool
      then stripZeros fuel' (v / 10)%Z
      else v
  end.

(** The integer of fewest significant digits, [k] and up, that reads back
    as the double [x], whose value is the integer [X] of [nd] digits: the
    nearer to [X] of two, and of two as near the one whose last digit is
    even. *)
Fixpoint shortest (fuel k : nat) (x : float) (X : Z) (nd : nat) : Z :=
  match fuel with
  | O => X
  | S fuel' =>
      let p := (10 ^ Z.of_nat (nd - k))%Z in
      let lo := (X / p * p)%Z in
      let hi := (lo + p)%Z in
      match PrimFloat.eqb (nearest false lo 1) x,
            PrimFloat.eqb (nearest false hi 1) x with
      | true, false => lo
      | false, true => hi
      | true, true =>
          match (X - lo ?= hi - X)%Z with
          | Lt => lo
          | Gt => hi
          | Eq => if Z.even (lo / p) then lo else hi
          end
      | false, false => shortest fuel' (S k) x X nd
      end
  end.

(** [Number::toString] of a finite double of 10^21 or more. *)
Definition exponential (x : float) : string :=
  let '(m, e) := magnitude x in
  let X := (m * 2 ^ e)%Z in
  let V := shortest 17 1 x X (String.length (digits X)) in
  let n := String.length (digits V) in
  let s := digits (stripZeros n V) in
  let mantissa :=
    match s with
    | String c "" => s
    | String c r => String c ("." ++ r)
    | "" => s
    end in
  mantissa ++ "e+" ++ digits (Z.of_nat (n - 1)).

(** [x.toFixed(f)] *)
Definition toFixed (x : float) (f : nat) : string :=
  if is_nan x then "NaN"
  else if is_infinity x then (if x <? 0 then "-Infinity" else "Infinity")
  else
    let s := if x <? 0 then "-" else "" in
    let x := PrimFloat.abs x in
    if atLeast (magnitude x) (10 ^ 21) then s ++ exponential x
    else
      let m := digits (scaled (magnitude x) f) in
      match f with
      | O => s ++ m
      | S _ =>
          let k := String.length m in
          let m := if (k <=? f)%nat then zeros (f + 1 - k) ++ m else m in
          let k := String.length m in
          s ++ substring 0 (k - f) m ++ "." ++ substring (k - f) f m
      end.

(** The object handed to [setResults] (lines 69-83). *)
Module Results.
Record t : Type := {
  bsa : string;
  baseIWL_low : string;
  baseIWL_high : string;
  weightBasedIWL_low : string;
  weightBasedIWL_high : string;
  adjustedIWL_low : string;
  adjustedIWL_high : string;
  hourlyRate_low : string;
  hourlyRate_high : string;
  feverAdjustment : string;
  rrAdjustment : string;
  normalRR : NormalRR;
  additionalAdjustment : string
}.
End Results.

Definition formatResults (l : Locals) : Results.t :=
  {| Results.bsa := toFixed (bsa l) 3;
     Results.baseIWL_low := toFixed (baseIWL_low l) 0;
     Results.baseIWL_high := toFixed (baseIWL_high l) 0;
     Results.weightBasedIWL_low := toFixed (weightBasedIWL_low l) 0;
     Results.weightBasedIWL_high := toFixed (weightBasedIWL_high l) 0;
     Results.adjustedIWL_low := toFixed (adjustedIWL_low l) 0;
     Results.adjustedIWL_high := toFixed (adjustedIWL_high l) 0;
     Results.hourlyRate_low := toFixed (adjustedIWL_low l / 24) 1;
     Results.hourlyRate_high := toFixed (adjustedIWL_high l / 24) 1;
     Results.feverAdjustment := toFixed (feverAdjustment l * 100) 1;
     Results.rrAdjustment := toFixed (rrAdjustment l) 0;
     Results.normalRR := normalRR l;
     Results.additionalAdjustment := toFixed (additionalAdjustment l) 0 |}.

(** What [calculateResults] (lines 28-84) hands to [setResults] for the
    fields and flags of [st]: nothing when it returns at its guard. *)
Definition calculateResults (st : State) : option Results.t :=
  if (negb (truthyString (height st)) || negb (truthyString (weight st)))%bool
  then None
  else Some (formatResults (calculate st)).

(** The fraction of [baseIWL_low] a risk factor adds (lines 60-63). *)
Definition fraction (key : factor) : float :=
  match key with
  | Phototherapy => 0.2
  | RadiantWarmer => 0.3
  | LowHumidity => 0.25
  | Burns => 0.5
  end.

(** The sum as the code takes it (lines 59-63): from 0, the fraction of
    [base] of each flag of [keys] added in turn. *)
Definition riskTotal (base : float) (keys : list factor) : float :=
  fold_left (fun acc key => acc + base * fraction key) keys 0.

End Double.

(** ** The sign of a double

    A double in the specification of the operations has the sign [s]: it
    is a zero, a finite value or an infinity of that sign, and not [nan]. *)
Definition signed (s : bool) (x : spec_float) : bool :=
  match x with
  | S754_zero s' | S754_infinity s' | S754_finite s' _ _ => Bool.eqb s s'
  | S754_nan => false
  end.

(** Above zero: a finite double that is not zero, or the infinity. *)
Definition positive_float (x : spec_float) : bool :=
  match x with
  | S754_infinity false | S754_finite false _ _ => true
  | _ => false
  end.

(** ** The specification's reading of the two tables

    The lookup as the specification words it: an ordered list of exclusive
    upper weight bounds with their bands, read first match, and a band for
    the weights past the last bound. *)

Definition Newborn : NormalRR := {| min := Num 30; max := Num 60; age := "Newborn" |}.
Definition Months0to3 : NormalRR := {| min := Num 30; max := Num 50; age := "0-3 months" |}.
Definition Months3to6 : NormalRR := {| min := Num 25; max := Num 40; age := "3-6 months" |}.
Definition Months6to12 : NormalRR := {| min := Num 20; max := Num 35; age := "6-12 months" |}.
Definition Years1to3 : NormalRR := {| min := Num 20; max := Num 30; age := "1-3 years" |}.
Definition Years3plus : NormalRR := {| min := Num 15; max := Num 25; age := "3+ years" |}.

Definition bandTable : list (R * NormalRR) :=
  [ (3%R, Newborn); (5%R, Months0to3); (8%R, Months3to6);
    (12%R, Months6to12); (20%R, Years1to3) ].

Fixpoint firstMatch (table : list (R * NormalRR)) (otherwise : NormalRR)
  (weightKg : number) : NormalRR :=
  match table with
  | [] => otherwise
  | (bound, band) :: rest =>
      if weightKg < Num bound then band else firstMatch rest otherwise weightKg
  end.

(** The bands of the table, the last one included. *)
Definition bands : list NormalRR := map snd bandTable ++ [Years3plus].

(** The weights (in kg) of a band of the table: from the bound of the band
    before it, or from zero, up to its own bound. *)
Definition inBand (lower upper : R) (w : R) : Prop := (lower <= w < upper)%R.

(** The fraction of [baseIWL_low] a risk factor adds. *)
Definition fraction (key : factor) : R :=
  match key with
  | Phototherapy => 0.2
  | RadiantWarmer => 0.3
  | LowHumidity => 0.25
  | Burns => 0.5
  end.

Definition allFactors : list factor :=
  [Phototherapy; RadiantWarmer; LowHumidity; Burns].

(** The flags that are set. *)
Definition selected (f : AdditionalFactors) : list factor :=
  filter (getFactor f) allFactors.

(** The sum over the flags [keys] of their fractions of [base], in the
    arithmetic of numbers. *)
Definition riskSum (base : number) (keys : list factor) : number :=
  fold_right (fun key acc => base * Num (fraction key) + acc) (Num 0) keys.

(** The sum of the fractions of the flags [keys]. *)
Definition fractionSum (keys : list factor) : R :=
  fold_right (fun key acc => (fraction key + acc)%R) 0%R keys.

(** The sum as the code takes it (lines 59-63): from 0, the fraction of
    [base] of each flag of [keys] added in turn. *)
Definition riskTotal (base : number) (keys : list factor) : number :=
  fold_left (fun acc key => acc + base * Num (fraction key)) keys (Num 0).

(** ** States used as examples *)

Definition noFactors : AdditionalFactors :=
  {| phototherapy := false; radiantWarmer := false;
     lowHumidity := false; burns := false |}.


(** A form filled with the given texts and flags, before any result. *)
Definition form (h w t r : string) (f : AdditionalFactors) : State :=
  {| height := h; weight := w; temperature := t; respiratoryRate := r;
     additionalFactors := f; results := None; showInfo := false |}.

(** A child of 77 cm and 8.5 kg with a temperature of 39, a respiratory
    rate of 55, under phototherapy and with burns. *)
Definition illChild : State :=
  form "77" "8.5" "39" "55"
    {| phototherapy := true; radiantWarmer := false;
       lowHumidity := false; burns := true |}.


(** The same form with its height cleared. *)
Definition heightCleared : State :=
  form "" "8.5" "39" "55" (additionalFactors illChild).



(** ** Facts on numbers *)

Lemma Rltb_spec (x y : R) : reflect (x < y)%R (Rltb x y).
Proof. unfold Rltb. destruct (Rlt_dec x y); constructor; assumption. Qed.

Lemma Rleb_spec (x y : R) : reflect (x <= y)%R (Rleb x y).
Proof. unfold Rleb. destruct (Rle_dec x y); constructor; assumption. Qed.

Lemma Reqb_spec (x y : R) : reflect (x = y) (Reqb x y).
Proof. unfold Reqb. destruct (Req_dec_T x y); constructor; assumption. Qed.

(** Decides the comparisons of reals met in a goal, then closes it by
    linear arithmetic when it can. *)
Ltac cmp_cases :=
  repeat match goal with
  | |- context [Rltb ?x ?y] => destruct (Rltb_spec x y)
  | |- context [Rleb ?x ?y] => destruct (Rleb_spec x y)
  | |- context [Reqb ?x ?y] => destruct (Reqb_spec x y)
  | H : context [Rltb ?x ?y] |- _ => destruct (Rltb_spec x y)
  | H : context [Rleb ?x ?y] |- _ => destruct (Rleb_spec x y)
  | H : context [Reqb ?x ?y] |- _ => destruct (Reqb_spec x y)
  end.

Ltac num_simpl :=
  cbn [JS.add JS.sub JS.neg JS.mul JS.div Math.sqrt JS.lt JS.le negb] in *.

(** Unfolds the operators on numbers of known shape, decides the
    comparisons of reals this leaves and closes what is then linear. *)
Ltac num_crush :=
  unfold JS.gt, JS.or, JS.truthy in *;
  repeat (progress (num_simpl; unfold JS.scale_inf in *; cmp_cases));
  try discriminate; try reflexivity; try congruence; try (exfalso; lra);
  try (f_equal; lra).

Lemma add_comm (a b : number) : a + b = b + a.
Proof. destruct a, b; num_crush. Qed.

Lemma add_assoc (a b c : number) : a + (b + c) = a + b + c.
Proof. destruct a, b, c; num_crush. Qed.

Lemma add_0_l (a : number) : Num 0 + a = a.
Proof. destruct a; num_crush. Qed.

Lemma add_0_r (a : number) : a + Num 0 = a.
Proof. destruct a; num_crush. Qed.


Lemma le_Num (x y : R) : (Num x <= Num y) = true <-> (x <= y)%R.
Proof. cbn. destruct (Rleb_spec x y); intuition discriminate. Qed.

(** ** Facts on parseFloat *)

Lemma parseFloat_eq (s : string) (v : option (bool * literal)) :
  readSigned (trimStart s) = v ->
  parseFloat s = match v with Some l => MV l | None => NaN end.
Proof. intros <-. reflexivity. Qed.

(** Evaluates [parseFloat] on the string constants of a goal. *)
Ltac eval_parseFloat :=
  repeat match goal with
  | |- context [parseFloat ?s] =>
      let v := eval vm_compute in (readSigned (trimStart s)) in
      rewrite (parseFloat_eq s v eq_refl); cbv [MV Q2R Qnum Qden Qopp Z.opp]
  end.



Lemma truthyString_true (s : string) : s <> "" -> truthyString s = true.
Proof.
  intros H. unfold truthyString. destruct (String.eqb_spec s ""); [contradiction | reflexivity].
Qed.

(** ** Facts on calculateResults *)

Section ComponentFacts.

Variable toFixed : number -> nat -> string.

Lemma calculateResults_proceeds (st : State) :
  height st <> "" -> weight st <> "" ->
  calculateResults toFixed st
  = setResults (formatResults toFixed (calculate st)) st.
Proof.
  intros Hh Hw. unfold calculateResults.
  rewrite (truthyString_true _ Hh), (truthyString_true _ Hw). reflexivity.
Qed.

Lemma calculateResults_returns (st : State) :
  height st = "" \/ weight st = "" -> calculateResults toFixed st = st.
Proof.
  intros [H | H]; unfold calculateResults; rewrite H; cbn.
  - reflexivity.
  - now rewrite orb_true_r.
Qed.

End ComponentFacts.

(** ** Facts on doubles

    The sign of what rounding gives, read off the specification of the
    operations on doubles. *)

Lemma shr_1_nonneg (mrs : shr_record) :
  (0 <= shr_m mrs)%Z -> (0 <= shr_m (shr_1 mrs))%Z.
Proof.
  destruct mrs as [m r s]. destruct m as [| [p | p |] | p]; cbn; lia.
Qed.

Lemma shr_1_digits (mrs : shr_record) :
  (0 <= shr_m mrs)%Z ->
  (Zdigits2 (shr_m mrs) - 1 <= Zdigits2 (shr_m (shr_1 mrs)))%Z.
Proof.
  destruct mrs as [m r s].
  destruct m as [| [p | p |] | p]; cbn [shr_1 shr_m Zdigits2 digits2_pos];
    intros H; rewrite ?Pos2Z.inj_succ; lia.
Qed.

Lemma iter_shr_1_nonneg (p : positive) (mrs : shr_record) :
  (0 <= shr_m mrs)%Z -> (0 <= shr_m (SpecFloat.iter_pos shr_1 p mrs))%Z.
Proof.
  revert mrs. induction p as [p IH | p IH |]; intros mrs H; cbn.
  - apply IH, IH, shr_1_nonneg, H.
  - apply IH, IH, H.
  - apply shr_1_nonneg, H.
Qed.

Lemma iter_shr_1_digits (p : positive) (mrs : shr_record) :
  (0 <= shr_m mrs)%Z ->
  (Zdigits2 (shr_m mrs) - Z.pos p
   <= Zdigits2 (shr_m (SpecFloat.iter_pos shr_1 p mrs)))%Z.
Proof.
  revert mrs.
  induction p as [p IH | p IH |]; intros mrs H; cbn [SpecFloat.iter_pos].
  - pose proof (shr_1_nonneg mrs H) as H1.
    pose proof (shr_1_digits mrs H) as D1.
    pose proof (iter_shr_1_nonneg p _ H1) as H2.
    pose proof (IH _ H1) as D2. pose proof (IH _ H2) as D3. lia.
  - pose proof (iter_shr_1_nonneg p _ H) as H2.
    pose proof (IH _ H) as D2. pose proof (IH _ H2) as D3. lia.
  - pose proof (shr_1_digits mrs H). lia.
Qed.

Lemma shr_fexp_nonneg (m e : Z) (l : location) :
  (0 <= m)%Z -> (0 <= shr_m (fst (shr_fexp prec emax m e l)))%Z.
Proof.
  intros H. unfold shr_fexp, shr.
  assert (H0 : (0 <= shr_m (shr_record_of_loc m l))%Z)
    by (destruct l as [| []]; exact H).
  destruct (fexp prec emax (Zdigits2 m + e) - e)%Z; cbn [fst]; try exact H0.
  apply iter_shr_1_nonneg, H0.
Qed.

Lemma shr_fexp_positive (m e : Z) (l : location) :
  (1 <= m)%Z -> (emin <= e)%Z ->
  (1 <= shr_m (fst (shr_fexp prec emax m e l)))%Z
  /\ (emin <= snd (shr_fexp prec emax m e l))%Z.
Proof.
  intros Hm He. unfold shr_fexp, shr.
  assert (H0 : shr_m (shr_record_of_loc m l) = m)
    by (destruct l as [| []]; reflexivity).
  destruct (fexp prec emax (Zdigits2 m + e) - e)%Z as [| p | p] eqn:En;
    cbn [fst snd]; try (rewrite H0; split; lia).
  split; [| lia].
  assert (Hp : (Z.pos p < Zdigits2 m)%Z).
  { unfold fexp in En. pose proof (eq_refl : prec = 53%Z) as Hprec. lia. }
  pose proof (iter_shr_1_digits p (shr_record_of_loc m l)
                ltac:(rewrite H0; lia)) as Hd.
  pose proof (iter_shr_1_nonneg p (shr_record_of_loc m l)
                ltac:(rewrite H0; lia)) as Hn.
  rewrite H0 in Hd.
  destruct (shr_m (SpecFloat.iter_pos shr_1 p (shr_record_of_loc m l)));
    cbn [Zdigits2] in Hd; lia.
Qed.

Lemma round_nearest_even_ge (m : Z) (l : location) :
  (0 <= m)%Z -> (m <= round_nearest_even m l)%Z.
Proof.
  intros H. destruct l as [| []]; cbn; try destruct (Z.even m); lia.
Qed.

(** Rounding a mantissa that is not negative gives a double of the sign
    asked for, never [nan]. *)
Lemma binary_round_aux_signed (s : bool) (m e : Z) (l : location) :
  (0 <= m)%Z -> signed s (binary_round_aux prec emax s m e l) = true.
Proof.
  intros H. unfold binary_round_aux.
  pose proof (shr_fexp_nonneg m e l H) as H1.
  destruct (shr_fexp prec emax m e l) as [mrs' e']. cbn [fst] in H1.
  pose proof (shr_fexp_nonneg _ e' loc_Exact
                (Z.le_trans _ _ _ H1
                   (round_nearest_even_ge _ (loc_of_shr_record mrs') H1)))
    as H2.
  destruct (shr_fexp prec emax
              (round_nearest_even (shr_m mrs') (loc_of_shr_record mrs')) e'
              loc_Exact) as [mrs'' e''].
  cbn [fst] in H2.
  destruct (shr_m mrs'') as [| p | p].
  - cbn. apply eqb_reflx.
  - destruct (e'' <=? emax - prec)%Z; cbn; apply eqb_reflx.
  - lia.
Qed.

(** Rounding a mantissa above zero at an exponent that is not below the
    least one gives a double above zero: nothing is lost to underflow. *)
Lemma binary_round_aux_positive (m e : Z) (l : location) :
  (1 <= m)%Z -> (emin <= e)%Z ->
  positive_float (binary_round_aux prec emax false m e l) = true.
Proof.
  intros Hm He. unfold binary_round_aux.
  destruct (shr_fexp_positive m e l Hm He) as [H1 E1].
  destruct (shr_fexp prec emax m e l) as [mrs' e']. cbn [fst snd] in H1, E1.
  pose proof (round_nearest_even_ge (shr_m mrs') (loc_of_shr_record mrs')
                ltac:(lia)) as Hr.
  destruct (shr_fexp_positive
              (round_nearest_even (shr_m mrs') (loc_of_shr_record mrs'))
              e' loc_Exact ltac:(lia) E1) as [H2 _].
  destruct (shr_fexp prec emax _ e' loc_Exact) as [mrs'' e''].
  cbn [fst] in H2.
  destruct (shr_m mrs''); try lia.
  destruct (e'' <=? emax - prec)%Z; reflexivity.
Qed.

Lemma positive_signed (x : spec_float) :
  positive_float x = true -> signed false x = true.
Proof. destruct x as [s | s | | s m e]; try destruct s; easy. Qed.

Lemma ltb_zero_positive (x : float) :
  (0 <? x)%float = true <-> positive_float (Prim2SF x) = true.
Proof.
  rewrite ltb_spec. change (Prim2SF 0) with (S754_zero false).
  destruct (Prim2SF x) as [s | s | | s m e]; try destruct s; cbn;
    intuition discriminate.
Qed.

Lemma leb_zero_signed (x : float) :
  signed false (Prim2SF x) = true -> (0 <=? x)%float = true.
Proof.
  rewrite leb_spec. change (Prim2SF 0) with (S754_zero false).
  destruct (Prim2SF x) as [s | s | | s m e]; try destruct s; cbn;
    intuition discriminate.
Qed.

(** The product of two doubles above zero, divided by 3600, is not
    negative and is not [nan]. *)
Lemma quotient_signed (h w : float) :
  (0 <? h)%float = true -> (0 <? w)%float = true ->
  signed false (Prim2SF (h * w / 3600)%float) = true.
Proof.
  rewrite !ltb_zero_positive, div_spec, mul_spec.
  change (Prim2SF 3600) with (S754_finite false 7916483719987200 (-41)).
  destruct (Prim2SF h) as [sh | sh | | sh mh eh]; try discriminate;
    destruct sh; try discriminate; intros _;
    destruct (Prim2SF w) as [sw | sw | | sw mw ew]; try discriminate;
    destruct sw; try discriminate; intros _; try reflexivity.
  unfold SF64mul, SFmul. cbn [xorb].
  pose proof (binary_round_aux_signed false (Z.pos (mh * mw)) (eh + ew)
                loc_Exact ltac:(lia)) as Hm.
  destruct (binary_round_aux prec emax false (Z.pos (mh * mw)) (eh + ew)
              loc_Exact) as [s | s | | s m e];
    try discriminate Hm; destruct s; try discriminate Hm; try reflexivity.
  unfold SF64div, SFdiv. cbn [xorb].
  destruct (SFdiv_core_binary prec emax (Z.pos m) e 7916483719987200 (-41))
    as [[mz ez] lz] eqn:Ed.
  apply binary_round_aux_signed.
  unfold SFdiv_core_binary in Ed.
  destruct (Z.div_eucl _ _) as [q r] eqn:Eq in Ed.
  injection Ed as <- _ _.
  match type of Eq with
  | Z.div_eucl ?a ?b = _ =>
      assert (Ha : (0 <= a)%Z);
      [| pose proof (Z_div_mod a b ltac:(lia)) as Hdm; rewrite Eq in Hdm; nia]
  end.
  destruct (_ - _ - _)%Z; try lia. apply Z.shiftl_nonneg. lia.
Qed.

(** The square root of a double that is not negative is not negative. *)
Lemma sqrt_signed (q : float) :
  signed false (Prim2SF q) = true ->
  signed false (Prim2SF (PrimFloat.sqrt q)) = true.
Proof.
  rewrite sqrt_spec.
  destruct (Prim2SF q) as [s | s | | s m e]; try discriminate;
    destruct s; try discriminate; intros _; try reflexivity.
  unfold SF64sqrt, SFsqrt.
  destruct (SFsqrt_core_binary prec emax (Z.pos m) e) as [[ms es] ls] eqn:Es.
  apply binary_round_aux_signed.
  unfold SFsqrt_core_binary in Es.
  destruct (Z.sqrtrem _) as [q' r] eqn:Eq in Es.
  injection Es as <- _ _.
  match type of Eq with
  | Z.sqrtrem ?a = _ =>
      pose proof (Z.sqrtrem_sqrt a) as Hsq; rewrite Eq in Hsq;
      cbn [fst] in Hsq; rewrite Hsq; apply Z.sqrt_nonneg
  end.
Qed.

(** The square root of a double above zero is above zero. *)
Lemma sqrt_positive (q : float) :
  (0 <? q)%float = true -> (0 <? PrimFloat.sqrt q)%float = true.
Proof.
  rewrite !ltb_zero_positive, sqrt_spec.
  pose proof (Prim2SF_valid q) as Hv.
  destruct (Prim2SF q) as [s | s | | s m e]; try discriminate;
    destruct s; try discriminate; intros _; [reflexivity |].
  unfold SF64sqrt, SFsqrt.
  destruct (SFsqrt_core_binary prec emax (Z.pos m) e) as [[mz ez] lz] eqn:Es.
  assert (Hqe : (1 <= mz)%Z /\ (emin <= ez)%Z).
  { cbn [valid_binary] in Hv. unfold bounded, canonical_mantissa in Hv.
    apply andb_prop in Hv as [Hc _]. apply Z.eqb_eq in Hc.
    assert (He : (emin <= e)%Z) by (rewrite <- Hc; unfold fexp; lia).
    unfold SFsqrt_core_binary in Es.
    destruct (Z.sqrtrem _) as [q' r] eqn:Eq in Es.
    injection Es as <- <- _.
    match type of Eq with
    | Z.sqrtrem ?a = _ =>
        pose proof (Z.sqrtrem_sqrt a) as Hsq; rewrite Eq in Hsq;
        cbn [fst] in Hsq
    end.
    set (e' := Z.min _ _) in *.
    assert (He' : (emin <= e')%Z /\ (2 * e' <= e)%Z).
    { unfold e', fexp. rewrite !Z.div2_div.
      change emin with (-1074)%Z in *.
      split.
      - apply Z.min_glb; [lia |]. apply Z.div_le_lower_bound; lia.
      - pose proof (Z.mul_div_le e 2 ltac:(lia)). lia. }
    split; [| lia].
    rewrite Hsq. change 1%Z with (Z.sqrt 1). apply Z.sqrt_le_mono.
    destruct (e - 2 * e')%Z as [| p | p] eqn:Esh; try lia.
    rewrite Z.shiftl_mul_pow2 by lia.
    pose proof (Z.pow_pos_nonneg 2 (Z.pos p) ltac:(lia) ltac:(lia)). nia. }
  destruct Hqe as [Hq He].
  apply (binary_round_aux_positive mz ez lz Hq He).
Qed.

(** The square root of a zero is a zero. *)
Lemma sqrt_zero (q : float) :
  (q =? 0)%float = true -> (PrimFloat.sqrt q =? 0)%float = true.
Proof.
  rewrite !FloatAxioms.eqb_spec, sqrt_spec. change (Prim2SF 0) with (S754_zero false).
  destruct (Prim2SF q) as [s | s | | s m e]; try destruct s; cbn;
    intuition discriminate.
Qed.

(** ** The band lookup *)

Lemma getNormalRR_firstMatch (weightKg : number) :
  getNormalRR weightKg = firstMatch bandTable Years3plus weightKg.
Proof.
  unfold getNormalRR, bandTable, firstMatch.
  repeat match goal with |- context [if ?c then _ else _] => destruct c end;
    reflexivity.
Qed.

(** C5: the lookup of the normal respiratory rates is a total function of
    the weight, so it gives every weight one band and only one.  It is the
    first match over the ascending exclusive bounds 3, 5, 8, 12 and 20 of
    the table, with the band 15-25 '3+ years' past the last bound; on the
    weights from zero up the six bands are met on the contiguous intervals
    [0,3), [3,5), [5,8), [8,12), [12,20) and [20, infinity). *)
Theorem C5_band_lookup (w : R) :
  getNormalRR (Num w) = firstMatch bandTable Years3plus (Num w)
  /\ In (getNormalRR (Num w)) bands
  /\ (inBand 0 3 w ->
      getNormalRR (Num w) = {| min := Num 30; max := Num 60; age := "Newborn" |})
  /\ (inBand 3 5 w ->
      getNormalRR (Num w) = {| min := Num 30; max := Num 50; age := "0-3 months" |})
  /\ (inBand 5 8 w ->
      getNormalRR (Num w) = {| min := Num 25; max := Num 40; age := "3-6 months" |})
  /\ (inBand 8 12 w ->
      getNormalRR (Num w) = {| min := Num 20; max := Num 35; age := "6-12 months" |})
  /\ (inBand 12 20 w ->
      getNormalRR (Num w) = {| min := Num 20; max := Num 30; age := "1-3 years" |})
  /\ ((20 <= w)%R ->
      getNormalRR (Num w) = {| min := Num 15; max := Num 25; age := "3+ years" |})
  /\ ((0 <= w)%R ->
      inBand 0 3 w \/ inBand 3 5 w \/ inBand 5 8 w \/ inBand 8 12 w
      \/ inBand 12 20 w \/ (20 <= w)%R).
Proof.
  split; [apply getNormalRR_firstMatch |].
  split.
  { unfold getNormalRR, bands, bandTable. cbn [JS.lt map snd app].
    cmp_cases; cbn; tauto. }
  unfold inBand, getNormalRR. cbn [JS.lt].
  repeat split; intros; cmp_cases; try reflexivity; try (exfalso; lra).
  lra.
Qed.

(** ** The risk factors *)

Lemma riskSum_cons (base : number) (key : factor) (keys : list factor) :
  riskSum base (key :: keys) = base * Num (fraction key) + riskSum base keys.
Proof. reflexivity. Qed.

Lemma riskSum_Permutation (base : number) (keys keys' : list factor) :
  Permutation keys keys' -> riskSum base keys = riskSum base keys'.
Proof.
  induction 1 as [| k l l' _ IH | k k' l | l l' l'' _ IH1 _ IH2].
  - reflexivity.
  - rewrite !riskSum_cons, IH. reflexivity.
  - rewrite !riskSum_cons, !add_assoc.
    f_equal. apply add_comm.
  - now rewrite IH1.
Qed.

Lemma riskSum_Num (b : R) (keys : list factor) :
  riskSum (Num b) keys = Num (b * fractionSum keys).
Proof.
  induction keys as [| k l IH].
  - cbn. f_equal. lra.
  - rewrite riskSum_cons, IH.
    change (fractionSum (k :: l)) with (fraction k + fractionSum l)%R.
    cbn [JS.mul JS.add]. f_equal. lra.
Qed.

Lemma additionalAdjustment_riskSum (st : State) :
  additionalAdjustment (calculate st)
  = riskSum (baseIWL_low (calculate st)) (selected (additionalFactors st)).
Proof.
  unfold calculate. cbn [additionalAdjustment baseIWL_low].
  set (b := Math.sqrt _ * Num 400).
  unfold selected, allFactors.
  destruct (additionalFactors st) as [p r l u].
  cbn [phototherapy radiantWarmer lowHumidity burns].
  destruct p, r, l, u; cbn [filter getFactor phototherapy radiantWarmer
    lowHumidity burns riskSum fold_right fraction];
    rewrite ?add_0_l, ?add_0_r, <- ?add_assoc; reflexivity.
Qed.




(** ** The adjusted range *)


(** ** Body surface area *)

Lemma bsa_positive (st : State) (h w : R) :
  parseFloat (height st) = Num h -> parseFloat (weight st) = Num w ->
  (0 < h)%R -> (0 < w)%R ->
  bsa (calculate st) = Num (sqrt (h * w / 3600))
  /\ (0 < sqrt (h * w / 3600))%R.
Proof.
  intros Hh Hw Hh0 Hw0.
  assert (Hp : (0 < h * w / 3600)%R).
  { apply Rdiv_lt_0_compat; [apply Rmult_lt_0_compat; assumption | lra]. }
  split; [| now apply sqrt_lt_R0].
  unfold calculate. cbn [bsa]. rewrite Hh, Hw. cbn [JS.mul JS.div].
  destruct (Reqb_spec 3600 0); [exfalso; lra |]. cbn [Math.sqrt].
  destruct (Rltb_spec (h * w / 3600) 0); [exfalso; lra | reflexivity].
Qed.

(** C2, as the code has it: for a height and a weight above zero the body
    surface area is [sqrt (heightCm * weightKg / 3600)], the formula of
    Mosteller with each operation rounded to a double.  The quotient under
    the root is not negative and the area is never negative and never
    [nan]; the area is above zero whenever the quotient is, and it is zero
    when the quotient is zero, which is what a product too small for a
    double gives. *)
Theorem C2_bsa_mosteller (st : State) :
  let heightCm := Double.parseFloat (height st) in
  let weightKg := Double.parseFloat (weight st) in
  (0 <? heightCm)%float = true -> (0 <? weightKg)%float = true ->
  Double.bsa (Double.calculate st)
  = PrimFloat.sqrt (heightCm * weightKg / 3600)%float
  /\ (0 <=? heightCm * weightKg / 3600)%float = true
  /\ (0 <=? Double.bsa (Double.calculate st))%float = true
  /\ ((0 <? heightCm * weightKg / 3600)%float = true ->
      (0 <? Double.bsa (Double.calculate st))%float = true)
  /\ ((heightCm * weightKg / 3600 =? 0)%float = true ->
      (Double.bsa (Double.calculate st) =? 0)%float = true).
Proof.
  cbv zeta. intros Hh Hw.
  pose proof (quotient_signed _ _ Hh Hw) as Hq.
  split; [reflexivity |].
  split; [apply leb_zero_signed, Hq |].
  split; [apply leb_zero_signed, sqrt_signed, Hq |].
  split; [apply sqrt_positive | apply sqrt_zero].
Qed.

(** ** Fever *)

Lemma feverAdjustment_eq (st : State) :
  feverAdjustment (calculate st)
  = (if temp (calculate st) > Num 37
     then (temp (calculate st) - Num 37) * Num 0.13 else Num 0).
Proof. reflexivity. Qed.





(** ** Respiratory rate *)

Lemma rr_eq (st : State) :
  rr (calculate st) = (parseFloat (respiratoryRate st) || Num 0).
Proof. reflexivity. Qed.

Lemma normalRR_eq (st : State) :
  normalRR (calculate st) = getNormalRR (weightKg (calculate st)).
Proof. reflexivity. Qed.

Lemma rrAdjustment_eq (st : State) :
  rrAdjustment (calculate st)
  = (if rr (calculate st) > max (normalRR (calculate st))
     then (rr (calculate st) - max (normalRR (calculate st))) * Num 2
          * weightKg (calculate st)
     else Num 0).
Proof. reflexivity. Qed.





(** ** The hourly range *)

Lemma double_additionalAdjustment_riskTotal (st : State) :
  Double.additionalAdjustment (Double.calculate st)
  = Double.riskTotal (Double.baseIWL_low (Double.calculate st))
      (selected (additionalFactors st)).
Proof.
  unfold Double.calculate.
  cbn [Double.additionalAdjustment Double.baseIWL_low].
  unfold selected, allFactors.
  destruct (additionalFactors st) as [p r l u].
  destruct p, r, l, u; reflexivity.
Qed.

(** C8, as the code has it: once [height] and [weight] pass the guard, each
    bound of the hourly range that is stored is the rendering, to one
    decimal, of the same bound of the adjusted daily range divided by 24:
    of the bound as it was calculated from the form, before it is rendered
    in its turn, to no decimal, as the daily bound that is stored.  The two
    are rendered apart: the hourly value on display is not the daily value
    on display divided by 24. *)
Theorem C8_hourly_rate (st : State) :
  height st <> "" -> weight st <> "" ->
  let heightCm := Double.parseFloat (height st) in
  let weightKg := Double.parseFloat (weight st) in
  let temp := Double.parseFloat (temperature st) in
  let rr := Double.or (Double.parseFloat (respiratoryRate st)) 0 in
  let bsa := PrimFloat.sqrt (heightCm * weightKg / 3600)%float in
  let baseIWL_low := (bsa * 400)%float in
  let baseIWL_high := (bsa * 500)%float in
  let feverMultiplier :=
    (1 + (if 37 <? temp then (temp - 37) * 0.13 else 0))%float in
  let rrAdjustment :=
    (if Double.max (Double.getNormalRR weightKg) <? rr
     then (rr - Double.max (Double.getNormalRR weightKg)) * 2 * weightKg
     else 0)%float in
  let riskAdjustment :=
    Double.riskTotal baseIWL_low (selected (additionalFactors st)) in
  let adjustedIWL_low :=
    (baseIWL_low * feverMultiplier + rrAdjustment + riskAdjustment)%float in
  let adjustedIWL_high :=
    (baseIWL_high * feverMultiplier + rrAdjustment + riskAdjustment)%float in
  exists r : Double.Results.t,
    Double.calculateResults st = Some r
    /\ Double.Results.hourlyRate_low r
       = Double.toFixed (adjustedIWL_low / 24)%float 1
    /\ Double.Results.hourlyRate_high r
       = Double.toFixed (adjustedIWL_high / 24)%float 1
    /\ Double.Results.adjustedIWL_low r = Double.toFixed adjustedIWL_low 0
    /\ Double.Results.adjustedIWL_high r = Double.toFixed adjustedIWL_high 0.
Proof.
  intros Hh Hw. cbv zeta.
  exists (Double.formatResults (Double.calculate st)).
  split.
  { unfold Double.calculateResults.
    rewrite (truthyString_true _ Hh), (truthyString_true _ Hw). reflexivity. }
  cbn [Double.formatResults Double.Results.hourlyRate_low
       Double.Results.hourlyRate_high Double.Results.adjustedIWL_low
       Double.Results.adjustedIWL_high].
  change (Double.adjustedIWL_low (Double.calculate st))
    with (Double.baseIWL_low (Double.calculate st)
          * Double.feverMultiplier (Double.calculate st)
          + Double.rrAdjustment (Double.calculate st)
          + Double.additionalAdjustment (Double.calculate st))%float.
  change (Double.adjustedIWL_high (Double.calculate st))
    with (Double.baseIWL_high (Double.calculate st)
          * Double.feverMultiplier (Double.calculate st)
          + Double.rrAdjustment (Double.calculate st)
          + Double.additionalAdjustment (Double.calculate st))%float.
  rewrite double_additionalAdjustment_riskTotal.
  repeat split.
Qed.

(** ** The guard *)

(** C7: when the height or the weight is absent or is no number, its field
    is the empty string: the inputs of the form are number inputs, which
    hand over the empty string for a text that is no number.  The
    calculation then returns at once, whatever the temperature, the
    respiratory rate and the flags: it stores nothing and leaves the state
    as it was, so a form that never had a result still has none.  It is a
    total function: nothing is raised. *)
Theorem C7_empty_field_withheld (toFixed : number -> nat -> string)
  (st : State) :
  height st = "" \/ weight st = "" ->
  calculateResults toFixed st = st
  /\ results (calculateResults toFixed st) = results st
  /\ (results st = None -> results (calculateResults toFixed st) = None).
Proof.
  intros H. rewrite (calculateResults_returns toFixed st H).
  repeat split. trivial.
Qed.

(** ** A weight of zero *)



(** ** Ordered ranges *)



Lemma fractionSum_nonneg (keys : list factor) : (0 <= fractionSum keys)%R.
Proof.
  induction keys as [| k l IH]; cbn [fractionSum fold_right]; [lra |].
  fold (fractionSum l). destruct k; cbn [fraction]; lra.
Qed.



(** ** The theorems at work on the example *)

Lemma illChild_height : parseFloat (height illChild) = Num 77.
Proof. cbn [illChild form height]. eval_parseFloat. f_equal; lra. Defined.

Lemma illChild_weight : parseFloat (weight illChild) = Num 8.5.
Proof. cbn [illChild form weight]. eval_parseFloat. f_equal; lra. Defined.

Lemma illChild_temperature : parseFloat (temperature illChild) = Num 39.
Proof. cbn [illChild form temperature]. eval_parseFloat. f_equal; lra. Defined.

Lemma illChild_respiratoryRate :
  parseFloat (respiratoryRate illChild) = Num 55.
Proof.
  cbn [illChild form respiratoryRate]. eval_parseFloat. f_equal; lra.
Defined.


(** The band of 8.5 kg is 20-35 '6-12 months', the rate of 55 adds
    [(55 - 35) * 2 * 8.5 = 340] and the temperature of 39 a fraction of
    0.26. *)
Example illChild_rrAdjustment : rrAdjustment (calculate illChild) = Num 340.
Proof.
  rewrite rrAdjustment_eq, normalRR_eq, rr_eq.
  change (weightKg (calculate illChild)) with (parseFloat (weight illChild)).
  rewrite illChild_weight, illChild_respiratoryRate.
  unfold getNormalRR. num_crush; cbn [max]; num_crush.
Qed.

Example illChild_feverAdjustment :
  feverAdjustment (calculate illChild) = Num 0.26.
Proof.
  rewrite feverAdjustment_eq.
  change (temp (calculate illChild)) with (parseFloat (temperature illChild)).
  rewrite illChild_temperature. num_crush.
Qed.


Lemma C2_bsa_mosteller_witness :
  ((0 <? Double.parseFloat (height illChild))%float = true
   /\ (0 <? Double.parseFloat (weight illChild))%float = true)
  /\ (0 <=? Double.bsa (Double.calculate illChild))%float = true
  /\ Double.toFixed (Double.bsa (Double.calculate illChild)) 3 = "0.426".
Proof.
  assert (Hh : (0 <? Double.parseFloat (height illChild))%float = true)
    by (vm_compute; reflexivity).
  assert (Hw : (0 <? Double.parseFloat (weight illChild))%float = true)
    by (vm_compute; reflexivity).
  split; [split; assumption |].
  destruct (C2_bsa_mosteller illChild Hh Hw) as (_ & _ & H0 & _).
  split; [exact H0 | vm_compute; reflexivity].
Defined.

(** C2 as it is worded fails: a height and a weight of 1e-200, both above
    zero, have a product too small for a double, and the body surface area
    is zero. *)
Lemma C2_bsa_zero_on_underflow :
  (0 <? Double.parseFloat "1e-200")%float = true
  /\ (Double.parseFloat "1e-200" * Double.parseFloat "1e-200"
      =? 0)%float = true
  /\ Double.bsa (Double.calculate (form "1e-200" "1e-200" "37" "" noFactors))
     = 0%float
  /\ (0 <? Double.bsa
             (Double.calculate (form "1e-200" "1e-200" "37" "" noFactors)))%float
     = false
  /\ option_map Double.Results.bsa
       (Double.calculateResults (form "1e-200" "1e-200" "37" "" noFactors))
     = Some "0.000".
Proof. vm_compute. repeat split. Qed.

Lemma C7_empty_field_withheld_witness :
  height heightCleared = ""
  /\ forall toFixed : number -> nat -> string,
       calculateResults toFixed heightCleared = heightCleared
       /\ results (calculateResults toFixed heightCleared) = None.
Proof.
  split; [reflexivity |].
  intros toFixed.
  destruct (C7_empty_field_withheld toFixed heightCleared) as (H1 & _ & H3);
    [left; reflexivity |].
  split; [exact H1 | apply H3; reflexivity].
Defined.

Lemma C8_hourly_rate_witness :
  (height illChild <> "" /\ weight illChild <> "")
  /\ exists r : Double.Results.t,
       Double.calculateResults illChild = Some r
       /\ Double.Results.adjustedIWL_low r = "674"
       /\ Double.Results.hourlyRate_low r = "28.1"
       /\ Double.Results.adjustedIWL_high r = "728"
       /\ Double.Results.hourlyRate_high r = "30.3".
Proof.
  split; [split; discriminate |].
  destruct (C8_hourly_rate illChild) as (r & Hr & Hl & Hh & Hal & Hah);
    [discriminate | discriminate |].
  exists r. split; [exact Hr |].
  rewrite Hl, Hh, Hal, Hah. vm_compute. repeat split.
Defined.

(** C8 as it is worded fails: for a child of 45 cm and 2.5 kg at rest the
    low bound on display is 71 a day and 2.9 an hour, and 71 over 24 is not
    2.9: it is 2.958..., which to one decimal is 3.0. *)
Lemma C8_hourly_on_display_is_not_daily_over_24 :
  exists r : Double.Results.t,
    Double.calculateResults (form "45" "2.5" "37" "" noFactors) = Some r
    /\ Double.Results.adjustedIWL_low r = "71"
    /\ Double.Results.hourlyRate_low r = "2.9"
    /\ (Double.parseFloat "2.9" =? Double.parseFloat "71" / 24)%float = false
    /\ Double.toFixed (Double.parseFloat "71" / 24)%float 1 = "3.0".
Proof.
  eexists. split; [vm_compute; reflexivity |]. vm_compute. repeat split.
Qed.



(** * Further properties of the component *)

(** ** The checkboxes *)

Lemma handleFactorChange_again (key : factor) (st : State) :
  handleFactorChange key (handleFactorChange key st) = st.
Proof.
  destruct st as [h w t r [p rw lh b] res info].
  destruct key, p, rw, lh, b; reflexivity.
Qed.

(** A click on the checkbox of a risk factor flips the flag of that factor
    and leaves the three other flags, the four fields and the stored
    results as they were. *)
Theorem handleFactorChange_flips_one (key : factor) (st : State) :
  getFactor (additionalFactors (handleFactorChange key st)) key
  = negb (getFactor (additionalFactors st) key)
  /\ (forall other : factor,
        other <> key ->
        getFactor (additionalFactors (handleFactorChange key st)) other
        = getFactor (additionalFactors st) other)
  /\ height (handleFactorChange key st) = height st
  /\ weight (handleFactorChange key st) = weight st
  /\ temperature (handleFactorChange key st) = temperature st
  /\ respiratoryRate (handleFactorChange key st) = respiratoryRate st
  /\ results (handleFactorChange key st) = results st.
Proof.
  split; [destruct key; reflexivity |].
  split; [| repeat split].
  intros other Hne. destruct key, other; try reflexivity; contradiction.
Qed.

(** Two clicks on the same checkbox give the state back, and clicks on two
    checkboxes lead to the same state in either order. *)
Theorem handleFactorChange_involutive (key key' : factor) (st : State) :
  handleFactorChange key (handleFactorChange key st) = st
  /\ handleFactorChange key (handleFactorChange key' st)
     = handleFactorChange key' (handleFactorChange key st).
Proof.
  split; [apply handleFactorChange_again |].
  destruct st as [h w t r [p rw lh b] res info].
  destruct key, key'; reflexivity.
Qed.

(** ** Recalculation *)

Lemma calculate_inputs (st st' : State) :
  height st' = height st -> weight st' = weight st ->
  temperature st' = temperature st ->
  respiratoryRate st' = respiratoryRate st ->
  additionalFactors st' = additionalFactors st ->
  calculate st' = calculate st.
Proof.
  intros Hh Hw Ht Hr Hf. unfold calculate.
  rewrite Hh, Hw, Ht, Hr, Hf. reflexivity.
Qed.

Section RecalculationFacts.

Variable toFixed : number -> nat -> string.

Lemma calculateResults_calculate (st : State) :
  calculate (calculateResults toFixed st) = calculate st.
Proof.
  unfold calculateResults.
  destruct (negb (truthyString (height st)) || negb (truthyString (weight st)))%bool;
    reflexivity.
Qed.

Lemma calculateResults_fields (st : State) :
  height (calculateResults toFixed st) = height st
  /\ weight (calculateResults toFixed st) = weight st
  /\ temperature (calculateResults toFixed st) = temperature st
  /\ respiratoryRate (calculateResults toFixed st) = respiratoryRate st
  /\ additionalFactors (calculateResults toFixed st) = additionalFactors st
  /\ showInfo (calculateResults toFixed st) = showInfo st.
Proof.
  unfold calculateResults.
  destruct (negb (truthyString (height st)) || negb (truthyString (weight st)))%bool;
    repeat split.
Qed.

Lemma nonempty_or_empty (s : string) : s = "" \/ s <> "".
Proof. destruct s; [left; reflexivity | right; discriminate]. Qed.

Lemma calculateResults_cases (st : State) :
  ((height st = "" \/ weight st = "") /\ calculateResults toFixed st = st)
  \/ (height st <> "" /\ weight st <> ""
      /\ calculateResults toFixed st
         = setResults (formatResults toFixed (calculate st)) st).
Proof.
  destruct (nonempty_or_empty (height st)) as [Hh | Hh].
  { left. split; [now left | apply calculateResults_returns; now left]. }
  destruct (nonempty_or_empty (weight st)) as [Hw | Hw].
  { left. split; [now right | apply calculateResults_returns; now right]. }
  right. split; [exact Hh |]. split; [exact Hw |].
  now apply calculateResults_proceeds.
Qed.

End RecalculationFacts.

(** Running the calculation a second time changes nothing: the result it
    stores is made of the four fields and the flags alone, which it leaves
    as they are, with the information panel. *)
Theorem calculateResults_idempotent (toFixed : number -> nat -> string)
  (st : State) :
  calculateResults toFixed (calculateResults toFixed st)
  = calculateResults toFixed st
  /\ height (calculateResults toFixed st) = height st
  /\ weight (calculateResults toFixed st) = weight st
  /\ temperature (calculateResults toFixed st) = temperature st
  /\ respiratoryRate (calculateResults toFixed st) = respiratoryRate st
  /\ additionalFactors (calculateResults toFixed st) = additionalFactors st
  /\ showInfo (calculateResults toFixed st) = showInfo st.
Proof.
  split; [| apply calculateResults_fields].
  destruct (calculateResults_cases toFixed st) as [[He Hr] | (Hh & Hw & Hr)].
  - rewrite Hr. exact Hr.
  - rewrite Hr.
    rewrite calculateResults_proceeds by assumption. reflexivity.
Qed.

(** ** The events *)

Lemma handle_results (ev : event) (st : State) :
  results (handle ev st) = results st.
Proof. destruct ev; reflexivity. Qed.

Lemma handle_same_text (ev : event) (st : State) :
  changesDependencies ev st = false ->
  ev = InfoClick \/ handle ev st = st.
Proof.
  destruct st as [h w t r f res info].
  destruct ev as [v | v | v | v | key |]; cbn; intros Hc;
    try (apply negb_false_iff, String.eqb_eq in Hc; subst v);
    try discriminate; auto.
Qed.

Section EventFacts.

Variable toFixed : number -> nat -> string.

Lemma run_snoc (evs : list event) (ev : event) :
  run toFixed (evs ++ [ev]) = dispatch toFixed (run toFixed evs) ev.
Proof. unfold run. rewrite fold_left_app. reflexivity. Qed.

(** After an event the stored results are those before it, or the fresh
    ones of a form whose height and weight are both filled in. *)
Lemma dispatch_results (st : State) (ev : event) :
  results (dispatch toFixed st ev) = results st
  \/ (height (dispatch toFixed st ev) <> ""
      /\ weight (dispatch toFixed st ev) <> ""
      /\ results (dispatch toFixed st ev)
         = Some (formatResults toFixed (calculate (dispatch toFixed st ev)))).
Proof.
  unfold dispatch. destruct (changesDependencies ev st).
  - destruct (calculateResults_cases toFixed (handle ev st))
      as [[_ Hr] | (Hh & Hw & Hr)]; rewrite Hr.
    + left. apply handle_results.
    + right. repeat split; assumption.
  - left. apply handle_results.
Qed.

Lemma dispatch_empty_field (st : State) (ev : event) :
  height (dispatch toFixed st ev) = "" \/ weight (dispatch toFixed st ev) = "" ->
  results (dispatch toFixed st ev) = results st.
Proof.
  intros He. destruct (dispatch_results st ev) as [H | (Hh & Hw & _)];
    [exact H | tauto].
Qed.

Lemma dispatch_inStep (st : State) (ev : event) :
  inStep toFixed st -> inStep toFixed (dispatch toFixed st ev).
Proof.
  intros IH Hh Hw. unfold dispatch in *.
  destruct (changesDependencies ev st) eqn:Hc.
  - destruct (calculateResults_cases toFixed (handle ev st))
      as [[He Hr] | (_ & _ & Hr)]; rewrite Hr in *.
    + tauto.
    + reflexivity.
  - destruct (handle_same_text ev st Hc) as [-> | Hs].
    + apply IH; assumption.
    + rewrite Hs in *. apply IH; assumption.
Qed.

Lemma run_inStep (evs : list event) : inStep toFixed (run toFixed evs).
Proof.
  induction evs as [| ev evs IH] using rev_ind.
  - intros Hh. contradiction Hh. reflexivity.
  - rewrite run_snoc. now apply dispatch_inStep.
Qed.

Lemma fold_dispatch_results (evs : list event) (st : State) :
  results st <> None ->
  results (fold_left (dispatch toFixed) evs st) <> None.
Proof.
  revert st. induction evs as [| ev evs IH]; intros st Hs; [exact Hs |].
  cbn [fold_left]. apply IH.
  destruct (dispatch_results st ev) as [H | (_ & _ & H)]; rewrite H;
    [exact Hs | discriminate].
Qed.

Lemma showsPlaceholder_false (st : State) :
  showsPlaceholder st = false <-> results st <> None.
Proof.
  unfold showsPlaceholder. destruct (results st); split;
    congruence.
Qed.

End EventFacts.

(** The form after the user typed a height and a weight. *)
Lemma typed_height_weight (toFixed : number -> nat -> string) :
  height (run toFixed [HeightChange "77"; WeightChange "8.5"]) = "77"
  /\ weight (run toFixed [HeightChange "77"; WeightChange "8.5"]) = "8.5".
Proof. split; reflexivity. Defined.

(** Whatever the user has done since the first render, when the height and
    the weight are both filled in the stored results are those of the form
    as it stands: no event leaves results of older inputs on display next
    to a complete form. *)
Theorem results_follow_form (toFixed : number -> nat -> string)
  (evs : list event) :
  height (run toFixed evs) <> "" -> weight (run toFixed evs) <> "" ->
  results (run toFixed evs)
  = Some (formatResults toFixed (calculate (run toFixed evs))).
Proof. apply run_inStep. Qed.

Lemma results_follow_form_witness :
  (forall toFixed : number -> nat -> string,
     height (run toFixed [HeightChange "77"; WeightChange "8.5"]) <> ""
     /\ weight (run toFixed [HeightChange "77"; WeightChange "8.5"]) <> "")
  /\ forall toFixed : number -> nat -> string,
       results (run toFixed [HeightChange "77"; WeightChange "8.5"])
       = Some (formatResults toFixed
                 (calculate
                    (run toFixed [HeightChange "77"; WeightChange "8.5"]))).
Proof.
  assert (Hne : forall toFixed : number -> nat -> string,
            height (run toFixed [HeightChange "77"; WeightChange "8.5"]) <> ""
            /\ weight (run toFixed [HeightChange "77"; WeightChange "8.5"])
               <> "").
  { intros toFixed. destruct (typed_height_weight toFixed) as [Hh Hw].
    rewrite Hh, Hw. split; discriminate. }
  split; [exact Hne |].
  intros toFixed. apply (results_follow_form toFixed); apply Hne.
Defined.

(** An event that leaves the height or the weight empty leaves the stored
    results as they were: clearing a field does not bring the placeholder
    back, the results of the earlier inputs stay on display. *)
Theorem results_kept_when_field_emptied (toFixed : number -> nat -> string)
  (st : State) (ev : event) :
  height (dispatch toFixed st ev) = "" \/ weight (dispatch toFixed st ev) = "" ->
  results (dispatch toFixed st ev) = results st
  /\ showsPlaceholder (dispatch toFixed st ev) = showsPlaceholder st.
Proof.
  intros He. pose proof (dispatch_empty_field toFixed st ev He) as Hr.
  split; [exact Hr |]. unfold showsPlaceholder. now rewrite Hr.
Qed.

Lemma results_kept_when_field_emptied_witness :
  (forall toFixed : number -> nat -> string,
     height (dispatch toFixed
               (run toFixed [HeightChange "77"; WeightChange "8.5"])
               (HeightChange "")) = "")
  /\ forall toFixed : number -> nat -> string,
       results (dispatch toFixed
                  (run toFixed [HeightChange "77"; WeightChange "8.5"])
                  (HeightChange ""))
       = results (run toFixed [HeightChange "77"; WeightChange "8.5"]).
Proof.
  split; [intros toFixed; reflexivity |].
  intros toFixed.
  apply (results_kept_when_field_emptied toFixed). left. reflexivity.
Defined.

(** Once results are on display no sequence of events brings the
    placeholder back: the component never resets its results. *)
Theorem results_never_cleared (toFixed : number -> nat -> string)
  (st : State) (evs : list event) :
  showsPlaceholder st = false ->
  showsPlaceholder (fold_left (dispatch toFixed) evs st) = false.
Proof.
  rewrite !showsPlaceholder_false. apply fold_dispatch_results.
Qed.

Lemma results_never_cleared_witness :
  (forall toFixed : number -> nat -> string,
     showsPlaceholder (run toFixed [HeightChange "77"; WeightChange "8.5"])
     = false)
  /\ forall toFixed : number -> nat -> string,
       showsPlaceholder
         (fold_left (dispatch toFixed)
            [HeightChange ""; WeightChange ""; FactorChange Burns]
            (run toFixed [HeightChange "77"; WeightChange "8.5"]))
       = false.
Proof.
  assert (Hs : forall toFixed : number -> nat -> string,
            showsPlaceholder
              (run toFixed [HeightChange "77"; WeightChange "8.5"]) = false)
    by (intros toFixed; reflexivity).
  split; [exact Hs |].
  intros toFixed. apply (results_never_cleared toFixed). apply Hs.
Defined.

Lemma app_snoc_prefix (A : Type) (pre post evs : list A) (ev : A) :
  (evs ++ [ev] = pre ++ post)%list ->
  (post = [] /\ pre = (evs ++ [ev])%list)
  \/ exists post' : list A, evs = (pre ++ post')%list.
Proof.
  destruct post as [| x post] using rev_ind.
  - rewrite app_nil_r. intros <-. left. split; reflexivity.
  - rewrite app_assoc. intros H. apply app_inj_tail in H as [H _].
    right. exists post. exact H.
Qed.

(** The placeholder is on display exactly as long as the height and the
    weight have never been filled in together: at the first render and
    after every event so far one of the two was empty. *)
Theorem placeholder_until_both_filled (toFixed : number -> nat -> string)
  (evs : list event) :
  showsPlaceholder (run toFixed evs) = true
  <-> (forall pre post : list event,
         evs = (pre ++ post)%list ->
         height (run toFixed pre) = "" \/ weight (run toFixed pre) = "").
Proof.
  induction evs as [| ev evs IH] using rev_ind.
  - split; [| reflexivity].
    intros _ pre post H. symmetry in H. apply app_eq_nil in H as [-> _].
    left. reflexivity.
  - split.
    + intros Hp pre post H.
      assert (Hnone : results (run toFixed (evs ++ [ev])%list) = None).
      { unfold showsPlaceholder in Hp.
        destruct (results (run toFixed (evs ++ [ev])%list)); [discriminate | reflexivity]. }
      destruct (app_snoc_prefix _ pre post evs ev H) as [[_ ->] | [post' ->]].
      * destruct (nonempty_or_empty (height (run toFixed (evs ++ [ev])%list)))
          as [Hh | Hh]; [now left |].
        destruct (nonempty_or_empty (weight (run toFixed (evs ++ [ev])%list)))
          as [Hw | Hw]; [now right |].
        rewrite (run_inStep toFixed (evs ++ [ev])%list Hh Hw) in Hnone.
        discriminate.
      * apply IH with (post := post'); [| reflexivity].
        apply not_false_iff_true. intros Hf.
        apply showsPlaceholder_false in Hf.
        rewrite run_snoc in Hnone.
        apply (fold_dispatch_results toFixed [ev]) in Hf.
        cbn [fold_left] in Hf. contradiction.
    + intros Hall.
      assert (Hprev : showsPlaceholder (run toFixed evs) = true).
      { apply IH. intros pre post ->.
        apply (Hall pre (post ++ [ev])%list). now rewrite app_assoc. }
      rewrite run_snoc.
      unfold showsPlaceholder in *.
      rewrite dispatch_empty_field.
      * exact Hprev.
      * rewrite <- run_snoc. apply (Hall (evs ++ [ev])%list []).
        now rewrite app_nil_r.
Qed.

(** ** A form without fever, fast breathing or risk factors *)




(** ** Bounds on the adjustments *)




(** ** A negative quotient under the square root *)



(** ** Ticking a risk factor *)

Ltac perm_bubble :=
  repeat first
    [ apply Permutation_refl
    | eapply perm_trans; [apply perm_swap | apply perm_skip] ].

Lemma selected_after_tick (key : factor) (f : AdditionalFactors) :
  getFactor f key = false ->
  Permutation (key :: selected f) (selected (setFactor f key true)).
Proof.
  destruct f as [p r l b]. unfold selected, allFactors.
  destruct key; cbn [getFactor phototherapy radiantWarmer lowHumidity burns];
    intros Hoff; destruct p, r, l, b; try discriminate Hoff;
    cbn [filter getFactor setFactor phototherapy radiantWarmer lowHumidity
         burns]; perm_bubble.
Qed.

(** Ticking a risk factor that was not ticked never lowers the risk-factor
    adjustment, for a low end of the base range that is finite and not
    negative: the fraction of the factor joins the sum.  The base range is
    as it was, and a second click gives the state back. *)
Theorem tick_never_lowers (key : factor) (st : State) (b : R) :
  getFactor (additionalFactors st) key = false ->
  baseIWL_low (calculate st) = Num b -> (0 <= b)%R ->
  let st' := handleFactorChange key st in
  getFactor (additionalFactors st') key = true
  /\ baseIWL_low (calculate st') = baseIWL_low (calculate st)
  /\ baseIWL_high (calculate st') = baseIWL_high (calculate st)
  /\ (additionalAdjustment (calculate st)
      <= additionalAdjustment (calculate st')) = true
  /\ handleFactorChange key st' = st.
Proof.
  intros Hoff Hb Hb0 st'.
  assert (Hf : additionalFactors st' = setFactor (additionalFactors st) key true).
  { unfold st', handleFactorChange, setAdditionalFactors.
    cbn [additionalFactors]. now rewrite Hoff. }
  split; [rewrite Hf; destruct key; reflexivity |].
  split; [reflexivity |]. split; [reflexivity |].
  split; [| apply handleFactorChange_again].
  rewrite !additionalAdjustment_riskSum, Hf.
  change (baseIWL_low (calculate st')) with (baseIWL_low (calculate st)).
  rewrite <- (riskSum_Permutation _ _ _ (selected_after_tick key _ Hoff)).
  rewrite riskSum_cons, Hb, riskSum_Num. cbn [JS.mul JS.add].
  apply le_Num.
  pose proof (fractionSum_nonneg (selected (additionalFactors st))).
  assert (0 <= b * fraction key)%R
    by (apply Rmult_le_pos; [assumption | destruct key; cbn; lra]).
  lra.
Qed.

Lemma tick_never_lowers_witness :
  getFactor (additionalFactors illChild) LowHumidity = false
  /\ (additionalAdjustment (calculate illChild)
      <= additionalAdjustment
           (calculate (handleFactorChange LowHumidity illChild))) = true.
Proof.
  split; [reflexivity |].
  destruct (bsa_positive illChild 77 8.5 illChild_height illChild_weight)
    as [Hb Hpos]; [lra | lra |].
  assert (Hlow : baseIWL_low (calculate illChild)
                 = Num (sqrt (77 * 8.5 / 3600) * 400)).
  { change (baseIWL_low (calculate illChild))
      with (bsa (calculate illChild) * Num 400).
    now rewrite Hb. }
  apply (tick_never_lowers LowHumidity illChild _ eq_refl Hlow). lra.
Defined.

(** ** The bands by weight *)

(** A heavier child never gets a band of higher rates: when one weight is
    at most another, the lower and the upper rate of the band of the second
    are at most those of the band of the first. *)
Theorem getNormalRR_antitone (a b : number) :
  (a <= b) = true ->
  (min (getNormalRR b) <= min (getNormalRR a)) = true
  /\ (max (getNormalRR b) <= max (getNormalRR a)) = true.
Proof.
  intros Hab. unfold getNormalRR.
  destruct a as [| | | x], b as [| | | y]; try discriminate;
    cbn [JS.lt JS.le] in *; cmp_cases; cbn [min max JS.le];
    try discriminate; split; apply le_Num; lra.
Qed.

Lemma getNormalRR_antitone_witness :
  (Num 2.5 <= Num 8.5) = true
  /\ (max (getNormalRR (Num 8.5)) <= max (getNormalRR (Num 2.5))) = true.
Proof.
  split; [apply le_Num; lra |].
  apply (getNormalRR_antitone (Num 2.5) (Num 8.5)). apply le_Num. lra.
Defined.

(** ** Higher temperature, faster breathing *)





(** ** Fields left empty *)



